(** * MTPPO: the multi-task PPO update of [mtrl/rl/algorithms/mtppo.py]

    A shallow embedding of the algorithm container [MTPPO], its action
    samplers, its two loss functions and the update orchestration, over an
    abstract numerical backend: scalar arithmetic, random keys, automatic
    differentiation, optimizers, networks and action distributions are the
    external collaborators of the module and enter as type-class
    interfaces. Arrays carry their shape, and binary array operations
    follow the NumPy broadcasting rule, so that shape contracts can be
    stated. *)

From Stdlib Require Import QArith.
From stdpp Require Import base option list strings gmap.

Set Default Proof Using "Type".
Local Open Scope string_scope.
Local Open Scope nat_scope.

(** ** Exceptions and results *)

(** The ways a call of this module can raise. [AssertionError] carries the
    message of a Python [assert]; [ChexShapeError] is the assertion failure
    of [chex.assert_equal_shape] with the offending shapes;
    [BroadcastError] is what an array operation raises on shapes that do
    not broadcast; [NoneOperandError] is the [TypeError] of arithmetic on
    [None]; [TypeError] is the one of a call with the wrong number of
    arguments; [ValueError] is raised by chex on an input that is no
    collection; [ConcretizationTypeError] is what JAX raises when a traced
    value is converted to a Python number. *)
Inductive exn : Type :=
| AssertionError (msg : string)
| ChexShapeError (s1 s2 : list nat)
| BroadcastError (s1 s2 : list nat)
| NoneOperandError
| TypeError (msg : string)
| ValueError (msg : string)
| ConcretizationTypeError.

Inductive result (A : Type) : Type :=
| Ok (a : A)
| Raise (e : exn).
Arguments Ok {A} a.
Arguments Raise {A} e.

Global Instance result_ret : MRet result := fun _ a => Ok a.

Global Instance result_bind : MBind result := fun _ _ k r =>
  match r with
  | Ok a => k a
  | Raise e => Raise e
  end.

Definition to_option {A : Type} (r : result A) : option A :=
  match r with
  | Ok a => Some a
  | Raise _ => None
  end.

Definition is_ok {A : Type} (r : result A) : bool :=
  match r with
  | Ok _ => true
  | Raise _ => false
  end.

(** A value that may be [None] used as an operand. *)
Definition operand {A : Type} (o : option A) : result A :=
  match o with
  | Some a => Ok a
  | None => Raise NoneOperandError
  end.

(** ** Scalars *)

(** The floating-point scalars of the backend. Literals of the source
    ([0.2], [5e-3], [0.5], [1]) are injected with [lit]; [fclamp lo x hi]
    is [jax.lax.clamp(lo, x, hi)]; [fpow] is [**] with an integer
    exponent; [fmean] is the reduction behind [.mean()]. *)
Class Scalar : Type := {
  F : Type;
  lit : Q -> F;
  fadd : F -> F -> F;
  fsub : F -> F -> F;
  fmul : F -> F -> F;
  fneg : F -> F;
  fexp : F -> F;
  fpow : F -> Z -> F;
  fmaximum : F -> F -> F;
  fclamp : F -> F -> F -> F;
  fmean : list F -> F
}.

(** ** Arrays with shapes *)

Section Arrays.
Context `{Scalar}.

(** An array: its shape and its elements in row-major order. *)
Record Tensor : Type := mkTensor {
  shape : list nat;
  data : list F
}.

Definition numel (s : list nat) : nat := foldr Nat.mul 1 s.

Definition wf_tensor (t : Tensor) : Prop :=
  length (data t) = numel (shape t).

(** Broadcasting of one dimension: equal sizes, or one of them is 1. *)
Definition bdim (a b : nat) : option nat :=
  if decide (a = b) then Some a
  else if decide (a = 1) then Some b
  else if decide (b = 1) then Some a
  else None.

Fixpoint bshape (s1 s2 : list nat) : option (list nat) :=
  match s1, s2 with
  | [], [] => Some []
  | a :: s1', b :: s2' =>
      match bdim a b, bshape s1' s2' with
      | Some d, Some r => Some (d :: r)
      | _, _ => None
      end
  | _, _ => None
  end.

(** Shapes are aligned on the right: the shorter one is padded with 1s
    on the left. *)
Definition pad_left (r : nat) (s : list nat) : list nat :=
  replicate (r - length s) 1 ++ s.

Definition broadcast_shapes (s1 s2 : list nat) : option (list nat) :=
  let r := Nat.max (length s1) (length s2) in
  bshape (pad_left r s1) (pad_left r s2).

(** [chunks k m d]: the first [m] consecutive blocks of [k] elements. *)
Fixpoint chunks (k m : nat) (d : list F) : list (list F) :=
  match m with
  | 0 => []
  | S m' => take k d :: chunks k m' (drop k d)
  end.

(** The elements of an array of shape [src] seen at shape [tgt] (of the
    same rank): a dimension of size 1 is repeated. *)
Fixpoint expand (tgt src : list nat) (d : list F) : list F :=
  match tgt, src with
  | n :: tgt', m :: src' =>
      if decide (m = n)
      then concat (map (expand tgt' src') (chunks (numel src') m d))
      else concat (replicate n (expand tgt' src' d))
  | _, _ => d
  end.

Definition broadcast_to (s : list nat) (t : Tensor) : list F :=
  expand s (pad_left (length s) (shape t)) (data t).

(** A binary elementwise operation, with broadcasting. *)
Definition binop (f : F -> F -> F) (a b : Tensor) : result Tensor :=
  match broadcast_shapes (shape a) (shape b) with
  | Some s =>
      Ok (mkTensor s (zip_with f (broadcast_to s a) (broadcast_to s b)))
  | None => Raise (BroadcastError (shape a) (shape b))
  end.

(** A unary elementwise operation. *)
Definition tmap (f : F -> F) (a : Tensor) : Tensor :=
  mkTensor (shape a) (f <$> data a).

(** [a.reshape(-1, 1)]. *)
Definition reshape_col (a : Tensor) : Tensor :=
  mkTensor [numel (shape a); 1] (data a).

(** [a.mean()]. *)
Definition tmean (a : Tensor) : F := fmean (data a).

(** [jnp.array([t1, ..., tn])]: stacking along a new leading axis. *)
Definition stack (ts : list Tensor) : Tensor :=
  mkTensor (length ts :: match ts with [] => [] | t :: _ => shape t end)
           (concat (data <$> ts)).

End Arrays.

(** ** External collaborators *)

(** Random keys, differentiation, the optimizer library, the action
    distributions, the two networks with their configurations, and the
    generator behind [Space.sample()]. [random_split k num i] is element
    [i] of [jax.random.split(k, num)]. [grad f p] is the gradient at [p]
    of the scalar function [f], which is undefined where the traced
    function raises. *)
Class Backend {SC : Scalar} : Type := {
  Key : Type;
  PRNGKey : Z -> Key;
  random_split : Key -> nat -> nat -> Key;
  Params : Type;
  Grads : Type;
  grad : (Params -> option F) -> Params -> Grads;
  Optimizer : Type;
  OptState : Type;
  Updates : Type;
  tx_init : Optimizer -> Params -> OptState;
  tx_update : Optimizer -> Grads -> OptState -> Params -> Updates * OptState;
  apply_updates : Params -> Updates -> Params;
  Dist : Type;
  dist_sample : Dist -> Key -> Tensor;
  dist_sample_and_log_prob : Dist -> Key -> Tensor * Tensor;
  dist_mode : Dist -> Tensor;
  dist_stddev : Dist -> Tensor;
  dist_entropy : Dist -> Tensor;
  PolicyConfig : Type;
  policy_net_init : nat -> PolicyConfig -> Key -> Tensor -> Params;
  policy_net_apply : nat -> PolicyConfig -> Params -> Tensor -> Dist;
  policy_optimizer : PolicyConfig -> Optimizer;
  VfConfig : Type;
  vf_net_init : VfConfig -> Key -> Tensor -> Params;
  vf_net_apply : VfConfig -> Params -> Tensor -> Tensor;
  vf_optimizer : VfConfig -> Optimizer;
  NpRandom : Type;
  box_sample : list nat -> NpRandom -> Tensor * NpRandom
}.

(** The log records: dictionaries from names to scalars. *)
Abbreviation LogDict := (gmap string F).

Section MTPPO.
Context {SC : Scalar} {BK : Backend}.

(** [a | b] on dictionaries: the entries of [b] win. *)
Definition dict_or (a b : gmap string F) : gmap string F := b ∪ a.

(** *** flax's [TrainState] *)

Record TrainState (Out : Type) : Type := mkTrainState {
  step : nat;
  apply_fn : Params -> Tensor -> Out;
  params : Params;
  tx : Optimizer;
  opt_state : OptState
}.
Arguments mkTrainState {Out}.
Arguments step {Out}.
Arguments apply_fn {Out}.
Arguments params {Out}.
Arguments tx {Out}.
Arguments opt_state {Out}.

Definition TrainState_create {Out : Type}
    (fn : Params -> Tensor -> Out) (p : Params) (t : Optimizer)
  : TrainState Out :=
  mkTrainState 0 fn p t (tx_init t p).

Definition apply_gradients {Out : Type} (ts : TrainState Out) (grads : Grads)
  : TrainState Out :=
  let '(updates, new_opt_state) :=
    tx_update (tx ts) grads (opt_state ts) (params ts) in
  mkTrainState (S (step ts)) (apply_fn ts)
               (apply_updates (params ts) updates) (tx ts) new_opt_state.

(** [jax.value_and_grad(f, has_aux=True)(p)]. *)
Definition value_and_grad {A : Type}
    (f : Params -> result (F * A)) (p : Params) : result (F * A * Grads) :=
  va ← f p;
  Ok (va, grad (fun q => fst <$> to_option (f q)) p).

(** A Python value handed to chex: [None], one array, or a list or tuple
    of arrays. *)
Inductive pyval : Type :=
| PyNone
| PyArray (t : Tensor)
| PySequence (ts : list Tensor).

Definition pyval_of_optional (o : option Tensor) : pyval :=
  match o with
  | Some t => PyArray t
  | None => PyNone
  end.

(** [chex.assert_equal_shape(inputs, *, dims=None)] called with the
    positional arguments [positional]. The function takes one positional
    argument, the collection of the arrays to compare: a call with another
    number of positional arguments is a [TypeError], whatever they are; an
    argument that is no list or tuple is refused; the arrays of a
    collection must all have the shape of the first. *)
Definition assert_equal_shape (positional : list pyval) : result unit :=
  match positional with
  | [PySequence []] => Ok ()
  | [PySequence (t :: ts)] =>
      match list_find (fun u => shape u <> shape t) ts with
      | Some (_, u) => Raise (ChexShapeError (shape t) (shape u))
      | None => Ok ()
      end
  | [_] => Raise (ValueError "`inputs` is not a collection of arrays")
  | _ =>
      Raise (TypeError "assert_equal_shape() takes 1 positional argument")
  end.

(** [float(x)] on a traced value. The loss closures run inside
    [jax.value_and_grad], under the [jax.jit] of [_update_inner]: every
    array they hold is a tracer, and the conversion of a tracer to a
    Python number raises. *)
Definition py_float (x : F) : result F := Raise ConcretizationTypeError.

(** *** Data *)

(** Modelled from the spec: the rollout type of [mtrl.types], an ordered
    batch of observations, actions, sampling log-probabilities, value
    estimates, advantages and returns, of which the log-probabilities,
    the advantages and the returns may be absent. *)
Record Rollout : Type := mkRollout {
  observations : Tensor;
  actions : Tensor;
  log_probs : option Tensor;
  values : Tensor;
  advantages : option Tensor;
  returns : option Tensor
}.

(** Modelled from the spec: the off-policy replay sample of
    [mtrl.types], of which [update] only tests the type. *)
Record ReplayBufferSamples : Type := mkReplayBufferSamples {
  replay_arrays : list Tensor
}.

(** [ReplayBufferSamples | Rollout]. *)
Inductive UpdateData : Type :=
| IsReplayBufferSamples (d : ReplayBufferSamples)
| IsRollout (d : Rollout).

(** The gymnasium spaces; a space object owns the generator its
    [sample()] draws from. *)
Inductive SpaceKind : Type :=
| Box (shp : list nat)
| Discrete (n : nat)
| MultiDiscrete (nvec : list nat)
| MultiBinary (n : nat).

Record Space : Type := mkSpace {
  kind : SpaceKind;
  np_random : NpRandom
}.

(** Modelled from the spec: the environment description of [mtrl.envs],
    which exposes an observation space and an action space. *)
Record EnvConfig : Type := mkEnvConfig {
  action_space : Space;
  observation_space : Space
}.

(** [MTPPOConfig], with the two fields of its base [AlgorithmConfig]
    that [initialize] reads, [config.num_tasks] and [config.gamma]. *)
Record MTPPOConfig : Type := mkMTPPOConfig {
  cfg_num_tasks : nat;
  cfg_gamma : F;
  policy_config : PolicyConfig;
  vf_config : VfConfig;
  cfg_clip_eps : F;
  cfg_clip_vf_loss : bool;
  cfg_entropy_coefficient : F;
  cfg_vf_coefficient : F;
  cfg_target_kl : option F
}.

(** The defaults of the dataclass fields declared by [MTPPOConfig]. *)
Definition default_MTPPOConfig (n : nat) (g : F)
    (pc : PolicyConfig) (vc : VfConfig) : MTPPOConfig :=
  mkMTPPOConfig n g pc vc (lit (2 # 10)) true (lit (5 # 1000)) (lit 0) None.

(** The algorithm container; [num_tasks] is the field of its base class
    that [initialize] sets. *)
Record MTPPO : Type := mkMTPPO {
  num_tasks : nat;
  policy : TrainState Dist;
  value_function : TrainState Tensor;
  key : Key;
  gamma : F;
  clip_eps : F;
  clip_vf_loss : bool;
  entropy_coefficient : F;
  vf_coefficient : F;
  target_kl : option F
}.

(** [self.replace(policy=.., value_function=.., key=..)]: a copy with the
    given fields overridden. *)
Definition replace (self : MTPPO)
    (new_policy : option (TrainState Dist))
    (new_value_function : option (TrainState Tensor))
    (new_key : option Key) : MTPPO :=
  mkMTPPO (num_tasks self)
          (default (policy self) new_policy)
          (default (value_function self) new_value_function)
          (default (key self) new_key)
          (gamma self) (clip_eps self) (clip_vf_loss self)
          (entropy_coefficient self) (vf_coefficient self) (target_kl self).

(** *** Action sampling *)

Definition _sample_action (policy : TrainState Dist)
    (observation : Tensor) (key : Key) : Tensor * Key :=
  let key' := random_split key 2 0 in
  let action_key := random_split key 2 1 in
  let dist := apply_fn policy (params policy) observation in
  let action := dist_sample dist action_key in
  (action, key').

Definition _eval_action (policy : TrainState Dist) (observation : Tensor)
  : Tensor :=
  let dist := apply_fn policy (params policy) observation in
  dist_mode dist.

Definition _sample_action_dist_and_value
    (policy : TrainState Dist) (value_function : TrainState Tensor)
    (observation : Tensor) (key : Key)
  : Tensor * Tensor * Tensor * Tensor * Tensor * Key :=
  let key' := random_split key 2 0 in
  let action_key := random_split key 2 1 in
  let dist := apply_fn policy (params policy) observation in
  let '(action, action_log_prob) := dist_sample_and_log_prob dist action_key in
  let value := apply_fn value_function (params value_function) observation in
  (action, action_log_prob, dist_mode dist, dist_stddev dist, value, key').

(** [jax.device_get]: the same value, on the host. *)
Definition device_get {A : Type} (a : A) : A := a.

Definition sample_action (self : MTPPO) (observation : Tensor)
  : MTPPO * Tensor :=
  let '(action, key') := _sample_action (policy self) observation (key self) in
  (replace self None None (Some key'), device_get action).

Definition sample_action_dist_and_value (self : MTPPO) (observation : Tensor)
  : MTPPO * Tensor * Tensor * Tensor * Tensor * Tensor :=
  let '(action, log_prob, mean, std, value, key') :=
    _sample_action_dist_and_value
      (policy self) (value_function self) observation (key self) in
  (replace self None None (Some key'),
   device_get action, device_get log_prob, device_get mean,
   device_get std, device_get value).

Definition eval_action (self : MTPPO) (observation : Tensor) : Tensor :=
  device_get (_eval_action (policy self) observation).

(** *** The policy step *)

(** The locals [pg_loss] and [entropy_loss] of the closure [policy_loss]
    of [update_policy], lines 177 to 188; [policy_loss_key] is the key the
    closure captures. *)
Definition policy_losses (self : MTPPO) (data : Rollout)
    (policy_loss_key : Key) (params : Params) : result (F * F) :=
  let action_dist := apply_fn (policy self) params (observations data) in
  let '(_, new_log_probs) :=
    dist_sample_and_log_prob action_dist policy_loss_key in
  old_log_probs ← operand (log_probs data);
  log_ratio ← binop fsub (reshape_col new_log_probs) old_log_probs;
  let ratio := tmap fexp log_ratio in
  adv ← operand (advantages data);
  pg_loss1 ← binop fmul (tmap fneg adv) ratio;
  adv' ← operand (advantages data);
  pg_loss2 ← binop fmul (tmap fneg adv')
    (tmap (fun r => fclamp (fsub (lit 1) (clip_eps self)) r
                           (fadd (lit 1) (clip_eps self))) ratio);
  pg_max ← binop fmaximum pg_loss1 pg_loss2;
  let pg_loss := tmean pg_max in
  let entropy_loss := tmean (dist_entropy action_dist) in
  Ok (pg_loss, entropy_loss).

(** The closure [policy_loss]: its locals, then the [return] of lines 190
    to 193, which builds the total loss and then the log record, entry by
    entry, with [float]. *)
Definition policy_loss (self : MTPPO) (data : Rollout)
    (policy_loss_key : Key) (params : Params) : result (F * LogDict) :=
  '(pg_loss, entropy_loss) ← policy_losses self data policy_loss_key params;
  let total := fsub pg_loss (fmul (entropy_coefficient self) entropy_loss) in
  logged_entropy ← py_float entropy_loss;
  logged_pg ← py_float pg_loss;
  Ok (total,
      <["losses/policy_loss" := logged_pg]>
        {["losses/entropy_loss" := logged_entropy]}).

Definition update_policy (self : MTPPO) (data : Rollout)
  : result (MTPPO * LogDict) :=
  let key' := random_split (key self) 2 0 in
  let policy_loss_key := random_split (key self) 2 1 in
  '(_, logs, policy_grads) ←
    value_and_grad (policy_loss self data policy_loss_key)
                   (params (policy self));
  let policy' := apply_gradients (policy self) policy_grads in
  Ok (replace self (Some policy') None (Some key'), logs).

(** *** The value step *)

Definition square (x : F) : F := fpow x 2.

(** The two branches on [clip_vf_loss] of the closure
    [value_function_loss], lines 208 to 216: the local [vf_loss] from the
    recomputed values. *)
Definition vf_loss_branches (self : MTPPO) (data : Rollout)
    (new_values : Tensor) : result F :=
  if clip_vf_loss self then
    rets ← operand (returns data);
    err ← binop fsub new_values rets;
    let vf_loss_unclipped := tmap square err in
    delta ← binop fsub new_values (values data);
    v_clipped ← binop fadd (values data)
      (tmap (fun d => fclamp (fneg (clip_eps self)) d (clip_eps self)) delta);
    rets' ← operand (returns data);
    err_clipped ← binop fsub v_clipped rets';
    let vf_loss_clipped := tmap square err_clipped in
    vf_max ← binop fmaximum vf_loss_unclipped vf_loss_clipped;
    Ok (fmul (lit (1 # 2)) (tmean vf_max))
  else
    rets ← operand (returns data);
    err ← binop fsub new_values rets;
    Ok (fmul (lit (1 # 2)) (tmean (tmap square err))).

(** The local [vf_loss] of the closure: the recomputed values, the call
    of [chex.assert_equal_shape] of line 206, with the recomputed values
    and the returns as two positional arguments, and the two branches. *)
Definition value_loss (self : MTPPO) (data : Rollout) (params : Params)
  : result F :=
  let new_values := apply_fn (value_function self) params (observations data) in
  _ ← assert_equal_shape
        [PyArray new_values; pyval_of_optional (returns data)];
  vf_loss_branches self data new_values.

(** The closure [value_function_loss] of [update_value_function]: the
    local [vf_loss], then the [return] of lines 218 to 221, which builds
    the scaled loss and then the log record with [float]. *)
Definition value_function_loss (self : MTPPO) (data : Rollout)
    (params : Params) : result (F * LogDict) :=
  let new_values := apply_fn (value_function self) params (observations data) in
  vf_loss ← value_loss self data params;
  let scaled := fmul (vf_coefficient self) vf_loss in
  logged_vf ← py_float vf_loss;
  logged_values ← py_float (tmean new_values);
  Ok (scaled,
      <["losses/values" := logged_values]>
        {["losses/value_function" := logged_vf]}).

Definition update_value_function (self : MTPPO) (data : Rollout)
  : result (MTPPO * LogDict) :=
  '(_, logs, vf_grads) ←
    value_and_grad (value_function_loss self data)
                   (params (value_function self));
  let value_function' := apply_gradients (value_function self) vf_grads in
  Ok (replace self None (Some value_function') None, logs).

(** *** Orchestration *)

Definition _update_inner (self : MTPPO) (data : Rollout)
  : result (MTPPO * LogDict) :=
  '(self1, policy_logs) ← update_policy self data;
  '(self2, vf_logs) ← update_value_function self1 data;
  Ok (self2, dict_or policy_logs vf_logs).

Definition update (self : MTPPO) (data : UpdateData)
  : result (MTPPO * LogDict) :=
  match data with
  | IsReplayBufferSamples _ =>
      Raise (AssertionError "MTPPO does not support replay buffer samples.")
  | IsRollout data =>
      if log_probs data is None
      then Raise (AssertionError "Rollout policy log probs must have been recorded.")
      else if advantages data is None
      then Raise (AssertionError "GAE must be enabled for MTPPO.")
      else if returns data is None
      then Raise (AssertionError "Returns must be computed for MTPPO.")
      else _update_inner self data
  end.

(** *** Initialization *)

Definition is_box (s : Space) : bool :=
  match kind s with
  | Box _ => true
  | _ => false
  end.

Definition space_shape (s : Space) : list nat :=
  match kind s with
  | Box shp => shp
  | Discrete _ => []
  | MultiDiscrete nvec => [length nvec]
  | MultiBinary n => [n]
  end.

(** [[space.sample() for _ in range(n)]] on a box space: each call draws
    from the generator of the space and advances it. *)
Fixpoint sample_n (shp : list nat) (n : nat) (g : NpRandom)
  : list Tensor * NpRandom :=
  match n with
  | 0 => ([], g)
  | S n' =>
      let '(x, g1) := box_sample shp g in
      let '(xs, g2) := sample_n shp n' g1 in
      (x :: xs, g2)
  end.

(** [initialize]; the diagnostics it prints are left out, and so is the
    generator state it leaves in the observation space. *)
Definition initialize (config : MTPPOConfig) (env_config : EnvConfig)
    (seed : Z) : result MTPPO :=
  if negb (is_box (action_space env_config))
  then Raise (AssertionError "Non-box spaces currently not supported.")
  else if negb (is_box (observation_space env_config))
  then Raise (AssertionError "Non-box spaces currently not supported.")
  else
    let master_key := PRNGKey seed in
    let algorithm_key := random_split master_key 3 0 in
    let actor_init_key := random_split master_key 3 1 in
    let vf_init_key := random_split master_key 3 2 in
    let dummy_obs :=
      stack (fst (sample_n (space_shape (observation_space env_config))
                           (cfg_num_tasks config)
                           (np_random (observation_space env_config)))) in
    let action_dim := numel (space_shape (action_space env_config)) in
    let policy :=
      TrainState_create
        (policy_net_apply action_dim (policy_config config))
        (policy_net_init action_dim (policy_config config)
                         actor_init_key dummy_obs)
        (policy_optimizer (policy_config config)) in
    let value_function :=
      TrainState_create
        (vf_net_apply (vf_config config))
        (vf_net_init (vf_config config) vf_init_key dummy_obs)
        (vf_optimizer (vf_config config)) in
    Ok (mkMTPPO (cfg_num_tasks config) policy value_function algorithm_key
                (cfg_gamma config) (cfg_clip_eps config)
                (cfg_clip_vf_loss config) (cfg_entropy_coefficient config)
                (cfg_vf_coefficient config) (cfg_target_kl config)).

End MTPPO.

Arguments mkTrainState {SC BK Out}.
Arguments step {SC BK Out}.
Arguments apply_fn {SC BK Out}.
Arguments params {SC BK Out}.
Arguments tx {SC BK Out}.
Arguments opt_state {SC BK Out}.

(** ** The losses in the words of the design document

    Per-sample formulas over the lists of the batch, against which the
    array code is compared. *)
Section Specification.
Context {SC : Scalar} {BK : Backend}.

(** An array of a given shape, holding as many elements as it says. *)
Definition has_shape (t : Tensor) (s : list nat) : Prop :=
  shape t = s /\ length (data t) = numel s.

(** ratio = exp(new_log_prob - old_log_prob). *)
Definition spec_ratio (new_lp old_lp : list F) : list F :=
  zip_with (fun n o => fexp (fsub n o)) new_lp old_lp.

(** mean(max(-advantage * ratio, -advantage * clamp(ratio, 1-eps, 1+eps))). *)
Definition spec_pg_loss (eps : F) (adv ratio : list F) : F :=
  fmean (zip_with fmaximum
           (zip_with (fun a r => fmul (fneg a) r) adv ratio)
           (zip_with (fun a r =>
                        fmul (fneg a)
                             (fclamp (fsub (lit 1) eps) r (fadd (lit 1) eps)))
                     adv ratio)).

(** clipped_value = old_value + clamp(new_value - old_value, -eps, +eps). *)
Definition spec_clipped_values (eps : F) (new_v old_v : list F) : list F :=
  zip_with (fun o n => fadd o (fclamp (fneg eps) (fsub n o) eps)) old_v new_v.

Definition spec_sq_err (v rets : list F) : list F :=
  zip_with (fun x r => fpow (fsub x r) 2) v rets.

(** The value loss, with and without clipping. *)
Definition spec_value_loss (clip : bool) (eps : F)
    (new_v old_v rets : list F) : F :=
  if clip then
    fmul (lit (1 # 2))
         (fmean (zip_with fmaximum
                   (spec_sq_err new_v rets)
                   (spec_sq_err (spec_clipped_values eps new_v old_v) rets)))
  else
    fmul (lit (1 # 2)) (fmean (spec_sq_err new_v rets)).

(** The distribution the policy step evaluates at candidate parameters
    [q], and the log-probabilities of the sample it draws from it with
    the second half of the split key. *)
Definition candidate_dist (self : MTPPO) (data : Rollout) (q : Params) : Dist :=
  apply_fn (policy self) q (observations data).

Definition fresh_log_probs (self : MTPPO) (data : Rollout) (q : Params)
  : Tensor :=
  snd (dist_sample_and_log_prob (candidate_dist self data q)
                                (random_split (key self) 2 1)).

(** The values the value step recomputes at candidate parameters [q]. *)
Definition candidate_values (self : MTPPO) (data : Rollout) (q : Params)
  : Tensor :=
  apply_fn (value_function self) q (observations data).

(** The hyperparameter fields of two containers agree. *)
Definition same_hyperparameters (a b : MTPPO) : Prop :=
  num_tasks a = num_tasks b /\ gamma a = gamma b /\
  clip_eps a = clip_eps b /\ clip_vf_loss a = clip_vf_loss b /\
  entropy_coefficient a = entropy_coefficient b /\
  vf_coefficient a = vf_coefficient b /\ target_kl a = target_kl b.

(** The three statistics [update] requires are recorded. *)
Definition statistics_present (data : Rollout) : Prop :=
  log_probs data <> None /\ advantages data <> None /\ returns data <> None.

(** A container with other values in [num_tasks], [gamma] and
    [target_kl]. *)
Definition with_passthrough (self : MTPPO)
    (n : nat) (g : F) (t : option F) : MTPPO :=
  mkMTPPO n (policy self) (value_function self) (key self) g
          (clip_eps self) (clip_vf_loss self) (entropy_coefficient self)
          (vf_coefficient self) t.


(** The shape of [jnp.array] of [n] arrays of shape [shp]. *)
Definition stacked_shape (n : nat) (shp : list nat) : list nat :=
  match n with
  | 0 => [0]
  | S _ => n :: shp
  end.

(** A function applied to the container of a result. *)
Definition on_container (f : MTPPO -> MTPPO)
    (r : result (MTPPO * LogDict)) : result (MTPPO * LogDict) :=
  match r with
  | Ok (s, logs) => Ok (f s, logs)
  | Raise e => Raise e
  end.

(** The generator of a box space after [i] calls of [sample()]. *)
Fixpoint nth_generator (shp : list nat) (g : NpRandom) (i : nat) : NpRandom :=
  match i with
  | 0 => g
  | S i' => nth_generator shp (box_sample shp g).2 i'
  end.

(** The message of the [TypeError] of a call of [chex.assert_equal_shape]
    with more than one positional argument. *)
Definition chex_arity_error : exn :=
  TypeError "assert_equal_shape() takes 1 positional argument".

(** Every dimension of [src] is the one of [tgt] or 1. *)
Definition expands_to (tgt src : list nat) : Prop :=
  Forall2 (fun n m => m = n \/ m = 1) tgt src.

End Specification.

(** ** A backend over the rationals

    An executable instance of the two interfaces, with exact rational
    arithmetic kept in lowest terms, a linearised exponential, a forward
    difference for differentiation, plain gradient descent as optimizer,
    and one-parameter linear networks. It is used to run the update on
    concrete rollouts. *)
Module Rational.

Definition qsum (l : list Q) : Q := foldr Qplus 0%Q l.

Definition qmean (l : list Q) : Q :=
  Qred (qsum l / inject_Z (Z.of_nat (length l))).

Definition scalar : Scalar := {|
  F := Q;
  lit := Qred;
  fadd := fun x y => Qred (x + y);
  fsub := fun x y => Qred (x - y);
  fmul := fun x y => Qred (x * y);
  fneg := fun x => Qred (- x);
  fexp := fun x => Qred (1 + x);
  fpow := fun x n => Qred (Qpower x n);
  fmaximum := fun x y => if Qle_bool x y then y else x;
  fclamp := fun lo x hi =>
    if Qle_bool lo x then (if Qle_bool x hi then x else hi) else lo;
  fmean := qmean
|}.

Definition tensor (s : list nat) (d : list Q) : @Tensor scalar :=
  @mkTensor scalar s d.

(** The rows of a two-dimensional array. *)
Definition rows (t : @Tensor scalar) : list (list Q) :=
  @chunks scalar (numel (tail (shape t))) (hd 0 (shape t)) (data t).

Definition linear (p : Q) (obs : @Tensor scalar) : list Q :=
  (fun row => Qred (p * qsum row)) <$> rows obs.

Definition key_to_Q (k : nat) : Q := inject_Z (Z.of_nat k).

Definition backend : @Backend scalar := {|
  Key := nat;
  PRNGKey := Z.to_nat;
  random_split := fun k num i => k * S num + S i;
  Params := Q;
  Grads := Q;
  grad := fun (f : Q -> option (@F scalar)) (p : Q) =>
    match f (Qred (p + 1)), f p with
    | Some a, Some b => Qred (a - b)
    | _, _ => 0%Q
    end;
  Optimizer := Q;
  OptState := nat;
  Updates := Q;
  tx_init := fun _ _ => 0;
  tx_update := fun lr g st _ => (Qred (- (lr * g)), S st);
  apply_updates := fun p u => Qred (p + u);
  Dist := list Q;
  dist_sample := fun d k =>
    tensor [length d; 1] ((fun m => Qred (m + key_to_Q k)) <$> d);
  dist_sample_and_log_prob := fun d k =>
    (tensor [length d; 1] ((fun m => Qred (m + key_to_Q k)) <$> d),
     tensor [length d] ((fun m => Qred (- (key_to_Q k * m))) <$> d));
  dist_mode := fun d => tensor [length d; 1] d;
  dist_stddev := fun d => tensor [length d; 1] ((fun _ => 1%Q) <$> d);
  dist_entropy := fun d => tensor [length d] ((fun _ => (1 # 2)%Q) <$> d);
  PolicyConfig := Q;
  policy_net_init := fun _ _ k _ => Qred (1 # Pos.of_nat (S k));
  policy_net_apply := fun _ _ p obs => linear p obs;
  policy_optimizer := fun lr => lr;
  VfConfig := Q;
  vf_net_init := fun _ k _ => Qred (1 # Pos.of_nat (S k));
  vf_net_apply := fun _ p obs => tensor [hd 0 (shape obs); 1] (linear p obs);
  vf_optimizer := fun lr => lr;
  NpRandom := nat;
  box_sample := fun shp g =>
    (tensor shp (replicate (numel shp) (key_to_Q g)), S g)
|}.

#[local] Existing Instance scalar.
#[local] Existing Instance backend.

Definition box_env : @EnvConfig scalar backend :=
  mkEnvConfig (mkSpace (Box [1]) 0) (mkSpace (Box [2]) 1).

Definition discrete_env : @EnvConfig scalar backend :=
  mkEnvConfig (mkSpace (Discrete 4) 0) (mkSpace (Box [2]) 1).

Definition config : @MTPPOConfig scalar backend :=
  default_MTPPOConfig 2 (Qred (99 # 100)) (1 # 10)%Q (1 # 10)%Q.

(** A container with two tasks, as [initialize] builds it from [config],
    but with a nonzero value-loss coefficient. *)
Definition state0 : @MTPPO scalar backend :=
  mkMTPPO 2
    (TrainState_create (policy_net_apply 1 (1 # 10)%Q) (1 # 2)%Q (1 # 10)%Q)
    (TrainState_create (vf_net_apply (1 # 10)%Q) (1 # 4)%Q (1 # 10)%Q)
    5 (Qred (99 # 100)) (Qred (2 # 10)) true (Qred (5 # 1000)) (1 # 2)%Q None.

Definition col (l : list Q) : @Tensor scalar := tensor [length l; 1] l.

(** A rollout of two samples with two-dimensional observations. *)
Definition rollout0 : @Rollout scalar :=
  mkRollout (tensor [2; 2] [1; 2; 3; 4]%Q)
            (col [0; 0]%Q)
            (Some (col [-1; -2]%Q))
            (col [1; 1]%Q)
            (Some (col [1; -1]%Q))
            (Some (col [2; 0]%Q)).


Definition rollout_no_advantages : @Rollout scalar :=
  mkRollout (observations rollout0) (actions rollout0) (log_probs rollout0)
            (values rollout0) None (returns rollout0).

(** [rollout0] with its log-probabilities stored as a vector of shape
    [2]. *)
Definition rollout_flat_log_probs : @Rollout scalar :=
  mkRollout (observations rollout0) (actions rollout0)
            (Some (tensor [2] [-1; -2]%Q))
            (values rollout0) (advantages rollout0) (returns rollout0).

(** [rollout0] with the log-probabilities of three samples. *)
Definition rollout_three_log_probs : @Rollout scalar :=
  mkRollout (observations rollout0) (actions rollout0)
            (Some (col [-1; -2; -3]%Q))
            (values rollout0) (advantages rollout0) (returns rollout0).

(** [rollout0] with other actions, values and returns. *)
Definition rollout_other_targets : @Rollout scalar :=
  mkRollout (observations rollout0) (col [9; 9]%Q) (log_probs rollout0)
            (col [0; 3]%Q) (advantages rollout0) (Some (col [5; 7]%Q)).


(** Two environments whose action boxes hold six numbers each. *)
Definition box_env_2x3 : @EnvConfig scalar backend :=
  mkEnvConfig (mkSpace (Box [2; 3]) 0) (mkSpace (Box [2]) 1).

Definition box_env_6 : @EnvConfig scalar backend :=
  mkEnvConfig (mkSpace (Box [6]) 7) (mkSpace (Box [2]) 1).

End Rational.


(** ** Arrays: broadcasting at equal shapes *)
Section ArrayLemmas.
Context {SC : Scalar}.

Lemma bdim_same a : bdim a a = Some a.
Proof. unfold bdim. by rewrite decide_True. Qed.

Lemma bshape_same s : bshape s s = Some s.
Proof. induction s as [|a s IH]; simpl; [done|]. by rewrite bdim_same, IH. Qed.

Lemma pad_left_same s : pad_left (length s) s = s.
Proof. unfold pad_left. by rewrite Nat.sub_diag. Qed.

Lemma broadcast_shapes_same s : broadcast_shapes s s = Some s.
Proof.
  unfold broadcast_shapes. rewrite Nat.max_id, pad_left_same.
  apply bshape_same.
Qed.

Lemma chunks_concat k m d :
  length d = m * k -> concat (chunks k m d) = d.
Proof.
  revert d. induction m as [|m IH]; intros d Hd; simpl in *.
  - by destruct d.
  - rewrite IH; [apply take_drop|].
    rewrite length_drop. lia.
Qed.

Lemma chunks_length k m d :
  length d = m * k -> Forall (fun c => length c = k) (chunks k m d).
Proof.
  revert d. induction m as [|m IH]; intros d Hd; simpl in *; [constructor|].
  constructor.
  - rewrite length_take. lia.
  - apply IH. rewrite length_drop. lia.
Qed.

Lemma expand_same s d : length d = numel s -> expand s s d = d.
Proof.
  revert d. induction s as [|n s IH]; intros d Hd; simpl in *; [done|].
  rewrite decide_True by done.
  assert (Hm : map (expand s s) (chunks (numel s) n d) = chunks (numel s) n d).
  { pose proof (chunks_length (numel s) n d Hd) as Hall.
    induction Hall as [|c cs Hc _ IHcs]; simpl; [done|].
    by rewrite IH, IHcs. }
  rewrite Hm. by apply chunks_concat.
Qed.

Lemma broadcast_to_same t : wf_tensor t -> broadcast_to (shape t) t = data t.
Proof.
  intros Hwf. unfold broadcast_to. rewrite pad_left_same.
  by apply expand_same.
Qed.

(** At equal shapes a binary operation is the plain elementwise one. *)
Lemma binop_same_shape f a b :
  wf_tensor a -> wf_tensor b -> shape a = shape b ->
  binop f a b = Ok (mkTensor (shape a) (zip_with f (data a) (data b))).
Proof.
  intros Ha Hb Hs. unfold binop. rewrite <- Hs, broadcast_shapes_same.
  rewrite broadcast_to_same by done.
  unfold broadcast_to. rewrite Hs, pad_left_same, expand_same; [done|].
  by rewrite <- Hs at 1; rewrite Hb, Hs.
Qed.

Lemma fmap_zip_with_list {A B C D : Type} (g : C -> D) (f : A -> B -> C)
    (l : list A) (k : list B) :
  g <$> zip_with f l k = zip_with (fun x y => g (f x y)) l k.
Proof.
  revert k. induction l as [|x l IH]; intros [|y k]; simpl; try done.
  by rewrite IH.
Qed.

Lemma length_zip_same {A B C : Type} (f : A -> B -> C) l k n :
  length l = n -> length k = n -> length (zip_with f l k) = n.
Proof. intros Hl Hk. rewrite length_zip_with. lia. Qed.

Lemma zip_with_fmap_zip_with_r {A B C D E : Type}
    (f : A -> D -> E) (g : C -> D) (h : B -> A -> C)
    (l : list A) (k : list B) :
  zip_with f l (g <$> zip_with h k l) =
  zip_with (fun x y => f x (g (h y x))) l k.
Proof.
  revert k. induction l as [|x l IH]; intros [|y k]; simpl; try done.
  by rewrite IH.
Qed.

Lemma zip_with_fmap_both {A B C D E : Type}
    (f : C -> D -> E) (g : A -> C) (h : B -> D)
    (l : list A) (k : list B) :
  zip_with f (g <$> l) (h <$> k) = zip_with (fun x y => f (g x) (h y)) l k.
Proof.
  revert k. induction l as [|x l IH]; intros [|y k]; simpl; try done.
  by rewrite IH.
Qed.

Lemma zip_with_fmap_left {A B C D : Type}
    (f : C -> B -> D) (g : A -> C) (l : list A) (k : list B) :
  zip_with f (g <$> l) k = zip_with (fun x y => f (g x) y) l k.
Proof.
  revert k. induction l as [|x l IH]; intros [|y k]; simpl; try done.
  by rewrite IH.
Qed.

Lemma has_shape_mk (s : list nat) (l : list F) :
  length l = numel s -> has_shape (mkTensor s l) s.
Proof. by split. Qed.

Lemma has_shape_tmap (f : F -> F) (a : Tensor) (s : list nat) :
  has_shape a s -> has_shape (tmap f a) s.
Proof. intros [Hs Hl]. split; simpl; [done|]. by rewrite length_fmap. Qed.

Lemma has_shape_reshape_col (a : Tensor) (n : nat) :
  wf_tensor a -> numel (shape a) = n -> has_shape (reshape_col a) [n; 1].
Proof.
  intros Hwf Hn. split; simpl; [by rewrite Hn|].
  rewrite Hwf, Hn. lia.
Qed.

(** With broadcasting out of the way, a binary operation on two arrays
    of one shape is the elementwise operation. *)
Lemma binop_at_shape (f : F -> F -> F) (a b : Tensor) (s : list nat) :
  has_shape a s -> has_shape b s ->
  binop f a b = Ok (mkTensor s (zip_with f (data a) (data b))).
Proof.
  intros [Hsa Hla] [Hsb Hlb].
  rewrite binop_same_shape; unfold wf_tensor; congruence.
Qed.

End ArrayLemmas.

(** Shape side conditions: from the shapes in the context, by counting
    elements. *)
Ltac shape_tac :=
  unfold wf_tensor in *;
  repeat match goal with
         | H : has_shape _ _ |- _ => destruct H as [? ?]
         end;
  split; simpl;
  repeat (rewrite length_fmap || rewrite length_zip_with);
  [congruence | unfold numel in *; simpl in *; lia].

Ltac binop_steps s :=
  repeat (rewrite (binop_at_shape _ _ _ s) by shape_tac; simpl).

(** ** Arrays: broadcasting keeps arrays well formed *)
Section BroadcastLemmas.
Context {SC : Scalar}.

Lemma bdim_1_r n : bdim n 1 = Some n.
Proof. unfold bdim. repeat case_decide; congruence. Qed.

Lemma bdim_1_l n : bdim 1 n = Some n.
Proof. unfold bdim. repeat case_decide; congruence. Qed.

Lemma bdim_Some a b d :
  bdim a b = Some d -> (a = d \/ a = 1) /\ (b = d \/ b = 1).
Proof. unfold bdim. repeat case_decide; intros [= <-]; auto. Qed.

Lemma bdim_None a b : a <> b -> a <> 1 -> b <> 1 -> bdim a b = None.
Proof. intros. unfold bdim. by repeat case_decide. Qed.

Lemma bshape_expands s1 s2 s :
  bshape s1 s2 = Some s ->
  expands_to s s1 /\ expands_to s s2 /\ length s = length s1.
Proof.
  revert s2 s. induction s1 as [|a s1 IH]; intros [|b s2] s; simpl;
    try discriminate.
  - intros [= <-]. by repeat constructor.
  - destruct (bdim a b) as [d|] eqn:Ed; [|discriminate].
    destruct (bshape s1 s2) as [r|] eqn:Er; [|discriminate].
    intros [= <-]. destruct (IH _ _ Er) as (H1 & H2 & Hl).
    destruct (bdim_Some _ _ _ Ed) as [Ha Hb].
    repeat split; [constructor; auto; naive_solver
                  |constructor; auto; naive_solver
                  |simpl; congruence].
Qed.

Lemma numel_pad_left r s : numel (pad_left r s) = numel s.
Proof.
  unfold pad_left. induction (r - length s) as [|k IH]; simpl; [done|].
  unfold numel in *. simpl. lia.
Qed.

Lemma length_pad_left r s : length s <= r -> length (pad_left r s) = r.
Proof.
  intros. unfold pad_left. rewrite length_app, length_replicate. lia.
Qed.

Lemma length_chunks k m (d : list F) : length (chunks k m d) = m.
Proof. revert d. induction m as [|m IH]; intros d; simpl; [done|]. by rewrite IH. Qed.

Lemma length_concat_uniform {A : Type} (l : list (list A)) k :
  Forall (fun c => length c = k) l -> length (concat l) = length l * k.
Proof.
  induction 1 as [|c l Hc _ IH]; simpl; [done|].
  rewrite length_app, Hc, IH. lia.
Qed.

Lemma expand_length tgt src d :
  expands_to tgt src -> length d = numel src ->
  length (expand tgt src d) = numel tgt.
Proof.
  intros Hexp. revert d.
  induction Hexp as [|n m tgt src Hnm _ IH]; intros d Hd; simpl in *; [done|].
  unfold numel in *. simpl in *. fold (numel src) in *. fold (numel tgt) in *.
  case_decide as Hdec.
  - subst m.
    rewrite (length_concat_uniform _ (numel tgt)).
    + by rewrite length_map, length_chunks.
    + apply Forall_map.
      eapply Forall_impl; [by apply chunks_length|].
      intros c Hc. simpl. by apply IH.
  - destruct Hnm as [->| ->]; [done|].
    rewrite (length_concat_uniform _ (numel tgt)).
    + by rewrite length_replicate.
    + apply Forall_replicate. apply IH. lia.
Qed.

(** A binary operation on well-formed arrays whose shapes broadcast
    returns a well-formed array of the broadcast shape. *)
Lemma binop_broadcast (f : F -> F -> F) (a b : Tensor) (sa sb s : list nat) :
  has_shape a sa -> has_shape b sb ->
  broadcast_shapes sa sb = Some s ->
  exists r, binop f a b = Ok r /\ has_shape r s.
Proof.
  intros [Hsa Hla] [Hsb Hlb] Hbs. unfold binop. rewrite Hsa, Hsb, Hbs.
  eexists. split; [reflexivity|]. split; [done|]. simpl.
  unfold broadcast_shapes in Hbs.
  destruct (bshape_expands _ _ _ Hbs) as (H1 & H2 & Hlen).
  rewrite length_pad_left in Hlen by lia.
  apply length_zip_same; unfold broadcast_to; rewrite Hlen.
  - rewrite Hsa. apply expand_length; [done|]. by rewrite numel_pad_left.
  - rewrite Hsb. apply expand_length; [done|]. by rewrite numel_pad_left.
Qed.

Lemma binop_broadcast_error (f : F -> F -> F) (a b : Tensor) :
  broadcast_shapes (shape a) (shape b) = None ->
  binop f a b = Raise (BroadcastError (shape a) (shape b)).
Proof. intros Hbs. unfold binop. by rewrite Hbs. Qed.

Lemma broadcast_col_vec n : broadcast_shapes [n; 1] [n] = Some [n; n].
Proof.
  unfold broadcast_shapes, pad_left. simpl.
  by rewrite bdim_1_r, bdim_1_l.
Qed.

Lemma broadcast_col_table n : broadcast_shapes [n; 1] [n; n] = Some [n; n].
Proof.
  unfold broadcast_shapes, pad_left. simpl.
  by rewrite bdim_same, bdim_1_l.
Qed.

Lemma broadcast_cols_None n m :
  n <> m -> n <> 1 -> m <> 1 -> broadcast_shapes [n; 1] [m; 1] = None.
Proof.
  intros. unfold broadcast_shapes, pad_left. simpl.
  by rewrite bdim_None.
Qed.

End BroadcastLemmas.

(** ** Properties of the container operations *)
Section Properties.
Context {SC : Scalar} {BK : Backend}.

(** The value step on a container: what it returns in terms of the loss
    closure. *)
Lemma update_value_function_unfold self data :
  update_value_function self data =
  match value_function_loss self data (params (value_function self)) with
  | Ok (_, logs) =>
      Ok (replace self None
            (Some (apply_gradients (value_function self)
               (grad (fun q => fst <$> to_option (value_function_loss self data q))
                     (params (value_function self)))))
            None, logs)
  | Raise e => Raise e
  end.
Proof.
  unfold update_value_function, value_and_grad.
  destruct (value_function_loss self data _) as [[l logs]|e]; reflexivity.
Qed.

Lemma update_policy_unfold self data :
  update_policy self data =
  match policy_loss self data (random_split (key self) 2 1)
                    (params (policy self)) with
  | Ok (_, logs) =>
      Ok (replace self
            (Some (apply_gradients (policy self)
               (grad (fun q => fst <$> to_option
                        (policy_loss self data (random_split (key self) 2 1) q))
                     (params (policy self)))))
            None (Some (random_split (key self) 2 0)), logs)
  | Raise e => Raise e
  end.
Proof.
  unfold update_policy, value_and_grad.
  destruct (policy_loss self data _ _) as [[l logs]|e]; reflexivity.
Qed.

(** C6. [sample_action] returns the container with only its key
    replaced, by the first half of the split key, and the sample drawn
    with the second half from the distribution of the current policy
    parameters; the policy, the value function and every hyperparameter
    are those of the input. *)
Theorem sample_action_frame (self : MTPPO) (observation : Tensor) :
  sample_action self observation =
    (replace self None None (Some (random_split (key self) 2 0)),
     dist_sample (apply_fn (policy self) (params (policy self)) observation)
                 (random_split (key self) 2 1)) /\
  policy (sample_action self observation).1 = policy self /\
  value_function (sample_action self observation).1 = value_function self /\
  same_hyperparameters (sample_action self observation).1 self /\
  key (sample_action self observation).1 = random_split (key self) 2 0.
Proof. by repeat split. Qed.

(** C7. [eval_action] is the mode of the distribution of the policy
    parameters at the observation: two containers with the same policy
    network and parameters give the same action whatever their keys, and
    the result does not change when the key of the container does. *)
Theorem eval_action_deterministic (s1 s2 : MTPPO) (observation : Tensor) :
  apply_fn (policy s1) = apply_fn (policy s2) ->
  params (policy s1) = params (policy s2) ->
  eval_action s1 observation = eval_action s2 observation /\
  eval_action s1 observation =
    dist_mode (apply_fn (policy s1) (params (policy s1)) observation) /\
  (forall k : Key,
      eval_action (replace s1 None None (Some k)) observation =
      eval_action s1 observation).
Proof.
  intros Hfn Hp. unfold eval_action, _eval_action, device_get.
  split; [by rewrite Hfn, Hp|]. by split.
Qed.

(** *** The two loss closures never return *)

(** The closure of the policy step raises: the exception of its array
    code when there is one, and that of [float] otherwise. *)
Lemma policy_loss_unfold self batch k q :
  policy_loss self batch k q =
  match policy_losses self batch k q with
  | Ok _ => Raise ConcretizationTypeError
  | Raise e => Raise e
  end.
Proof.
  unfold policy_loss. by destruct (policy_losses self batch k q) as [[pg ent]|e].
Qed.

Lemma update_policy_raises self batch :
  update_policy self batch =
  match policy_losses self batch (random_split (key self) 2 1)
                      (params (policy self)) with
  | Ok _ => Raise ConcretizationTypeError
  | Raise e => Raise e
  end.
Proof.
  rewrite update_policy_unfold, policy_loss_unfold.
  by destruct (policy_losses self batch _ _).
Qed.

Lemma update_policy_some_exception self batch :
  exists e, update_policy self batch = Raise e.
Proof.
  rewrite update_policy_raises.
  destruct (policy_losses self batch _ _); eauto.
Qed.

(** The call of [chex.assert_equal_shape] in the value step raises,
    whatever the arrays. *)
Lemma value_loss_raises self batch q :
  value_loss self batch q = Raise chex_arity_error.
Proof. reflexivity. Qed.

Lemma value_function_loss_raises self batch q :
  value_function_loss self batch q = Raise chex_arity_error.
Proof. reflexivity. Qed.

Lemma update_value_function_raises self batch :
  update_value_function self batch = Raise chex_arity_error.
Proof. reflexivity. Qed.

Lemma update_inner_raises self batch e :
  update_policy self batch = Raise e -> _update_inner self batch = Raise e.
Proof. intros H. unfold _update_inner. by rewrite H. Qed.

Lemma update_complete_rollout self batch :
  statistics_present batch ->
  update self (IsRollout batch) = _update_inner self batch.
Proof.
  intros (Hl & Ha & Hr). unfold update.
  by destruct (log_probs batch), (advantages batch), (returns batch).
Qed.

Lemma update_never_ok self d : is_ok (update self d) = false.
Proof.
  destruct d as [rb|batch]; [reflexivity|]. unfold update.
  destruct (log_probs batch), (advantages batch), (returns batch);
    try reflexivity.
  destruct (update_policy_some_exception self batch) as [e He].
  by rewrite (update_inner_raises _ _ _ He).
Qed.

(** *** The array code of the two steps *)

(** The two losses of the policy step on a rollout of [n] samples whose
    log-probabilities and advantages are columns are the per-sample
    formulas. *)
Lemma policy_losses_at_shape self batch lp adv n q :
  log_probs batch = Some lp ->
  advantages batch = Some adv ->
  has_shape lp [n; 1] ->
  has_shape adv [n; 1] ->
  wf_tensor (fresh_log_probs self batch q) ->
  numel (shape (fresh_log_probs self batch q)) = n ->
  policy_losses self batch (random_split (key self) 2 1) q =
    Ok (spec_pg_loss (clip_eps self) (data adv)
          (spec_ratio (data (fresh_log_probs self batch q)) (data lp)),
        fmean (data (dist_entropy (candidate_dist self batch q)))).
Proof.
  intros Hlp Hadv Hslp Hsadv Hwf Hn.
  unfold policy_losses, fresh_log_probs in *.
  fold (candidate_dist self batch q) in *.
  destruct (dist_sample_and_log_prob (candidate_dist self batch q) _)
    as [smp nlp].
  simpl in Hwf, Hn. rewrite Hlp, Hadv. simpl.
  binop_steps [n; 1].
  unfold tmean, spec_pg_loss, spec_ratio. simpl.
  by rewrite (fmap_zip_with_list fexp fsub), zip_with_fmap_both,
    zip_with_fmap_left.
Qed.

(** The two branches of the value step on arrays of one shape are the
    per-sample formula. *)
Lemma vf_loss_branches_at_shape self batch rets s nv :
  returns batch = Some rets ->
  has_shape rets s ->
  (clip_vf_loss self = true -> has_shape (values batch) s) ->
  has_shape nv s ->
  vf_loss_branches self batch nv =
    Ok (spec_value_loss (clip_vf_loss self) (clip_eps self)
          (data nv) (data (values batch)) (data rets)).
Proof.
  intros Hr Hrets Hold Hnew. unfold vf_loss_branches, spec_value_loss.
  rewrite Hr. simpl.
  destruct (clip_vf_loss self).
  - specialize (Hold eq_refl).
    binop_steps s.
    unfold tmean, spec_sq_err, spec_clipped_values, square. simpl.
    by rewrite zip_with_fmap_zip_with_r, !fmap_zip_with_list.
  - binop_steps s.
    unfold tmean, spec_sq_err, square. simpl.
    by rewrite fmap_zip_with_list.
Qed.

(** *** The claims about the update *)

(** C1. On a rollout of [n] samples the policy step computes the two
    losses of the claim: the mean of the larger of the unclipped and the
    clipped surrogate, with the ratio taken from the log-probabilities of a
    sample drawn from the candidate distribution with the second half of
    the split key, and the mean entropy. It then raises at the first
    [float] of its [return]: the closure returns no total loss, and
    [update_policy] no gradient and no container. *)
Theorem update_policy_raises_at_float
    (self : MTPPO) (batch : Rollout) (lp adv : Tensor) (n : nat) :
  log_probs batch = Some lp ->
  advantages batch = Some adv ->
  has_shape lp [n; 1] ->
  has_shape adv [n; 1] ->
  (forall q, wf_tensor (fresh_log_probs self batch q) /\
             numel (shape (fresh_log_probs self batch q)) = n) ->
  (forall q,
      policy_losses self batch (random_split (key self) 2 1) q =
        Ok (spec_pg_loss (clip_eps self) (data adv)
              (spec_ratio (data (fresh_log_probs self batch q)) (data lp)),
            fmean (data (dist_entropy (candidate_dist self batch q)))) /\
      policy_loss self batch (random_split (key self) 2 1) q =
        Raise ConcretizationTypeError) /\
  update_policy self batch = Raise ConcretizationTypeError.
Proof.
  intros Hlp Hadv Hslp Hsadv Hnew.
  assert (Hlosses : forall q,
             policy_losses self batch (random_split (key self) 2 1) q =
             Ok (spec_pg_loss (clip_eps self) (data adv)
                   (spec_ratio (data (fresh_log_probs self batch q)) (data lp)),
                 fmean (data (dist_entropy (candidate_dist self batch q))))).
  { intros q. destruct (Hnew q) as [Hwf Hn].
    by apply (policy_losses_at_shape self batch lp adv n q). }
  split.
  - intros q. split; [apply Hlosses|].
    by rewrite policy_loss_unfold, Hlosses.
  - by rewrite update_policy_raises, Hlosses.
Qed.

(** C2. The two branches of the value step compute the loss of the
    claim on arrays of one shape, with clipping half the mean of the larger
    of the two squared errors and without it half the mean squared error.
    They are never reached: the call of [chex.assert_equal_shape] before
    them raises on every rollout, so the value step returns no loss, scaled
    or not, and applies no gradient. *)
Theorem update_value_function_raises_at_chex
    (self : MTPPO) (batch : Rollout) :
  (forall rets s nv,
      returns batch = Some rets ->
      has_shape rets s ->
      (clip_vf_loss self = true -> has_shape (values batch) s) ->
      has_shape nv s ->
      vf_loss_branches self batch nv =
        Ok (spec_value_loss (clip_vf_loss self) (clip_eps self)
              (data nv) (data (values batch)) (data rets))) /\
  (forall q, value_loss self batch q = Raise chex_arity_error) /\
  update_value_function self batch = Raise chex_arity_error.
Proof.
  split; [|split].
  - intros rets s nv. apply vf_loss_branches_at_shape.
  - apply value_loss_raises.
  - apply update_value_function_raises.
Qed.

(** C3. [update] raises an assertion failure on a replay sample and on a
    rollout without log-probabilities, advantages or returns, whatever the
    container. On a rollout with all three it runs the policy step, which
    raises, and [update] raises the same exception: it returns no
    container and no logs. *)
Theorem update_preconditions_then_raises (self : MTPPO) (d : UpdateData) :
  match d with
  | IsReplayBufferSamples _ =>
      update self d =
        Raise (AssertionError "MTPPO does not support replay buffer samples.")
  | IsRollout batch =>
      (log_probs batch = None ->
       update self d =
         Raise (AssertionError
                  "Rollout policy log probs must have been recorded.")) /\
      (log_probs batch <> None -> advantages batch = None ->
       update self d = Raise (AssertionError "GAE must be enabled for MTPPO.")) /\
      (log_probs batch <> None -> advantages batch <> None ->
       returns batch = None ->
       update self d =
         Raise (AssertionError "Returns must be computed for MTPPO.")) /\
      (statistics_present batch ->
       update self d = _update_inner self batch /\
       exists e,
         update_policy self batch = Raise e /\ update self d = Raise e)
  end.
Proof.
  destruct d as [r|batch]; [reflexivity|].
  split; [|split; [|split]].
  - unfold update. by intros ->.
  - unfold update. intros Hl ->. by destruct (log_probs batch).
  - unfold update. intros Hl Ha ->.
    by destruct (log_probs batch), (advantages batch).
  - intros Hs. split; [by apply update_complete_rollout|].
    destruct (update_policy_some_exception self batch) as [e He].
    exists e. split; [done|].
    rewrite update_complete_rollout by done. by apply update_inner_raises.
Qed.

(** C4. Within an update the value step is never reached: the policy step
    raises, and [_update_inner] raises the same exception. Called on its
    own, the value step does not depend on the policy or on the key of the
    container, but it raises as well. *)
Theorem value_step_never_reached (self : MTPPO) (batch : Rollout) :
  (exists e,
      update_policy self batch = Raise e /\
      _update_inner self batch = Raise e) /\
  (forall p k,
      update_value_function (replace self p None k) batch =
      update_value_function self batch) /\
  update_value_function self batch = Raise chex_arity_error.
Proof.
  split; [|split].
  - destruct (update_policy_some_exception self batch) as [e He].
    exists e. split; [done|]. by apply update_inner_raises.
  - intros p k. by rewrite !update_value_function_raises.
  - apply update_value_function_raises.
Qed.


Lemma sample_n_length shp n g : length (sample_n shp n g).1 = n.
Proof.
  revert g. induction n as [|n IH]; intros g; simpl; [done|].
  destruct (box_sample shp g) as [x g1]. specialize (IH g1).
  destruct (sample_n shp n g1) as [xs g2]. simpl in *. by rewrite IH.
Qed.

(** The [i]-th sample is drawn from the generator left by the [i] draws
    before it. *)
Lemma sample_n_lookup shp n g i :
  i < n ->
  (sample_n shp n g).1 !! i =
    Some (box_sample shp (nth_generator shp g i)).1.
Proof.
  revert g i. induction n as [|n IH]; intros g i Hi; [lia|].
  simpl. destruct (box_sample shp g) as [x g1] eqn:Ex.
  specialize (IH g1).
  destruct (sample_n shp n g1) as [xs g2] eqn:Exs.
  destruct i as [|i]; simpl.
  - by rewrite Ex.
  - rewrite Ex. simpl. apply IH. lia.
Qed.

(** C8. [initialize] raises the assertion failure when the action space
    or the observation space is not a box. When both are boxes it
    returns a container whose key, policy parameters and value
    parameters come from the three keys of one three-way split of the
    seed key, both networks being initialized on the stack of one
    observation-space sample per task: sample [i] is the draw from the
    generator of the observation space after [i] draws. *)
Theorem initialize_spec (config : MTPPOConfig) (env_config : EnvConfig)
    (seed : Z) :
  (is_box (action_space env_config) = false \/
   is_box (observation_space env_config) = false ->
   initialize config env_config seed =
     Raise (AssertionError "Non-box spaces currently not supported.")) /\
  (is_box (action_space env_config) = true ->
   is_box (observation_space env_config) = true ->
   let samples :=
     (sample_n (space_shape (observation_space env_config))
               (cfg_num_tasks config)
               (np_random (observation_space env_config))).1 in
   let dummy_obs := stack samples in
   let master_key := PRNGKey seed in
   let action_dim := numel (space_shape (action_space env_config)) in
   length samples = cfg_num_tasks config /\
   (forall i, i < cfg_num_tasks config ->
      samples !! i =
        Some (box_sample (space_shape (observation_space env_config))
                (nth_generator (space_shape (observation_space env_config))
                   (np_random (observation_space env_config)) i)).1) /\
   head (shape dummy_obs) = Some (cfg_num_tasks config) /\
   exists self,
     initialize config env_config seed = Ok self /\
     key self = random_split master_key 3 0 /\
     policy self =
       TrainState_create
         (policy_net_apply action_dim (policy_config config))
         (policy_net_init action_dim (policy_config config)
                          (random_split master_key 3 1) dummy_obs)
         (policy_optimizer (policy_config config)) /\
     value_function self =
       TrainState_create
         (vf_net_apply (vf_config config))
         (vf_net_init (vf_config config)
                      (random_split master_key 3 2) dummy_obs)
         (vf_optimizer (vf_config config)) /\
     num_tasks self = cfg_num_tasks config /\
     vf_coefficient self = cfg_vf_coefficient config).
Proof.
  split.
  - unfold initialize. intros [Ha|Ho].
    + by rewrite Ha.
    + rewrite Ho. by destruct (is_box (action_space env_config)).
  - intros Ha Ho samples dummy_obs master_key action_dim.
    assert (Hlen : length samples = cfg_num_tasks config)
      by apply sample_n_length.
    split; [done|].
    split; [intros i Hi; by apply sample_n_lookup|].
    split; [simpl; by rewrite Hlen|].
    eexists. unfold initialize. rewrite Ha, Ho. simpl.
    split; [reflexivity|]. by repeat split.
Qed.

(** C9. The closure of the value step raises at every parameter value,
    before the loss is scaled by the value-loss coefficient and before
    anything is logged: the value step applies no gradient and returns no
    log, also on a container initialized from the default configuration,
    whose coefficient is [0.0]. *)
Theorem value_gradient_never_applied (self : MTPPO) (batch : Rollout) :
  (forall q, value_function_loss self batch q = Raise chex_arity_error) /\
  update_value_function self batch = Raise chex_arity_error /\
  (forall n g pc vc env_config seed self0,
      initialize (default_MTPPOConfig n g pc vc) env_config seed = Ok self0 ->
      vf_coefficient self0 = lit 0 /\
      update_value_function self0 batch = Raise chex_arity_error).
Proof.
  split; [apply value_function_loss_raises|].
  split; [apply update_value_function_raises|].
  intros n g pc vc env_config seed self0 Hi.
  split; [|apply update_value_function_raises].
  unfold initialize in Hi.
  destruct (is_box (action_space env_config)); [|discriminate].
  destruct (is_box (observation_space env_config)); [|discriminate].
  simpl in Hi. by injection Hi as <-.
Qed.

(** C10. Neither step returns a container, and so no update does: the
    policy step raises before it replaces the policy and the key, the value
    step before it replaces the value function, and no key is advanced. *)
Theorem update_steps_never_return (self : MTPPO) (batch : Rollout) :
  is_ok (update_policy self batch) = false /\
  is_ok (update_value_function self batch) = false /\
  is_ok (_update_inner self batch) = false /\
  (forall d, is_ok (update self d) = false).
Proof.
  destruct (update_policy_some_exception self batch) as [e He].
  split; [by rewrite He|]. split; [reflexivity|].
  split; [by rewrite (update_inner_raises _ _ _ He)|].
  apply update_never_ok.
Qed.

End Properties.

(** ** Runs on the rational backend *)
Section Runs.
#[local] Existing Instance Rational.scalar.
#[local] Existing Instance Rational.backend.
Import Rational.

(** The policy step on [rollout0], two samples in columns of shape
    [2; 1]: the losses 243/20 and 1/2 are computed, and lost. *)
Lemma update_policy_raises_at_float_witness :
  policy_losses state0 rollout0 17 (params (policy state0)) =
    Ok ((243 # 20)%Q, (1 # 2)%Q) /\
  update_policy state0 rollout0 = Raise ConcretizationTypeError.
Proof.
  destruct (update_policy_raises_at_float state0 rollout0
              (col [-1; -2]%Q) (col [1; -1]%Q) 2) as [Hq Hu].
  - reflexivity.
  - reflexivity.
  - split; reflexivity.
  - split; reflexivity.
  - intros q. split; reflexivity.
  - split; [exact (proj1 (Hq (params (policy state0)))) | exact Hu].
Defined.

(** The value step on [rollout0]: its branches would give 37/32. *)
Lemma update_value_function_raises_at_chex_witness :
  vf_loss_branches state0 rollout0
    (candidate_values state0 rollout0 (params (value_function state0))) =
    Ok (37 # 32)%Q /\
  update_value_function state0 rollout0 = Raise chex_arity_error.
Proof.
  destruct (update_value_function_raises_at_chex state0 rollout0)
    as (Hb & _ & Hu).
  split; [|exact Hu].
  apply (Hb (col [2; 0]%Q) [2; 1]).
  - reflexivity.
  - split; reflexivity.
  - intros _. split; reflexivity.
  - split; reflexivity.
Defined.

(** [update] on a complete rollout raises in the policy step; without
    advantages it raises the assertion failure. *)
Lemma update_preconditions_then_raises_witness :
  update state0 (IsRollout rollout0) = Raise ConcretizationTypeError /\
  update state0 (IsRollout rollout_no_advantages) =
    Raise (AssertionError "GAE must be enabled for MTPPO.").
Proof.
  split.
  - destruct (update_preconditions_then_raises state0 (IsRollout rollout0))
      as (_ & _ & _ & H).
    destruct H as [_ (e & Hp & Hu)]; [repeat split; discriminate|].
    assert (Hc : update_policy state0 rollout0 = Raise ConcretizationTypeError)
      by (vm_compute; reflexivity).
    rewrite Hc in Hp. injection Hp as <-. exact Hu.
  - destruct (update_preconditions_then_raises state0
                (IsRollout rollout_no_advantages)) as (_ & H & _).
    apply H; [discriminate | reflexivity].
Defined.

Lemma value_step_never_reached_witness :
  exists e,
    update_policy state0 rollout0 = Raise e /\
    _update_inner state0 rollout0 = Raise e.
Proof. exact (proj1 (value_step_never_reached state0 rollout0)). Defined.


(** Evaluation before and after drawing an action. *)
Lemma eval_action_deterministic_witness :
  eval_action state0 (observations rollout0) =
  eval_action (sample_action state0 (observations rollout0)).1
              (observations rollout0).
Proof.
  apply (eval_action_deterministic state0
           (sample_action state0 (observations rollout0)).1);
    reflexivity.
Defined.

(** Initialization on a discrete action space and on two boxes; the
    second dummy observation is drawn from the generator after one draw. *)
Lemma initialize_spec_witness :
  initialize config discrete_env 1 =
    Raise (AssertionError "Non-box spaces currently not supported.") /\
  (sample_n [2] 2 1).1 !! 1 = Some (tensor [2] [2; 2]%Q) /\
  exists self, initialize config box_env 1 = Ok self /\ key self = 5.
Proof.
  split.
  - apply (initialize_spec config discrete_env 1). left. reflexivity.
  - destruct (initialize_spec config box_env 1) as [_ H].
    destruct (H eq_refl eq_refl) as (_ & Hs & _ & self & Hi & Hk & _).
    split; [apply (Hs 1); simpl; lia|].
    exists self. split; [apply Hi | apply Hk].
Defined.

(** A container initialized from the default configuration. *)
Lemma value_gradient_never_applied_witness :
  exists self0,
    initialize config box_env 1 = Ok self0 /\
    vf_coefficient self0 = 0%Q /\
    update_value_function self0 rollout0 = Raise chex_arity_error.
Proof.
  assert (Hok : is_ok (initialize config box_env 1) = true)
    by (vm_compute; reflexivity).
  destruct (initialize config box_env 1) as [self0|e] eqn:Hi;
    [|discriminate Hok].
  exists self0. split; [reflexivity|].
  destruct (value_gradient_never_applied state0 rollout0) as (_ & _ & H).
  apply (H 2 (Qred (99 # 100)) (1 # 10)%Q (1 # 10)%Q box_env 1%Z self0 Hi).
Defined.

Lemma update_steps_never_return_witness :
  is_ok (_update_inner state0 rollout0) = false /\
  is_ok (update state0 (IsRollout rollout0)) = false.
Proof.
  destruct (update_steps_never_return state0 rollout0) as (_ & _ & Hi & Hu).
  split; [exact Hi | exact (Hu (IsRollout rollout0))].
Defined.

(** Broadcasting a column against a vector gives the full table. *)
Example broadcast_column_vector :
  binop Qplus (col [1; 2]%Q) (tensor [2] [10; 20]%Q) =
  Ok (tensor [2; 2] [11; 21; 12; 22]%Q).
Proof. reflexivity. Qed.

End Runs.

(** ** Further properties of sampling, of the update and of initialization *)
Section Further.
Context {SC : Scalar} {BK : Backend}.

(** X1. [sample_action_dist_and_value] advances the container exactly as
    [sample_action] does, the mode it reports is the action of
    [eval_action], and its value is the value function at the current
    parameters. *)
Theorem sample_action_dist_and_value_agrees
    (self : MTPPO) (observation : Tensor) :
  let '(s', action, log_prob, mean, std, value) :=
    sample_action_dist_and_value self observation in
  s' = (sample_action self observation).1 /\
  mean = eval_action self observation /\
  (action, log_prob) =
    dist_sample_and_log_prob
      (apply_fn (policy self) (params (policy self)) observation)
      (random_split (key self) 2 1) /\
  std = dist_stddev (apply_fn (policy self) (params (policy self)) observation) /\
  value = apply_fn (value_function self) (params (value_function self))
                   observation.
Proof.
  unfold sample_action_dist_and_value, _sample_action_dist_and_value.
  destruct (dist_sample_and_log_prob _ _) as [a lp] eqn:E.
  by repeat split.
Qed.

(** X2. For a distribution whose [sample_and_log_prob] draws the sample
    that [sample] draws from the same key, [sample_action_dist_and_value]
    and [sample_action] return the same action and the same container. *)
Theorem sample_action_dist_and_value_same_action
    (self : MTPPO) (observation : Tensor) :
  (forall d k, (dist_sample_and_log_prob d k).1 = dist_sample d k) ->
  (sample_action_dist_and_value self observation).1.1.1.1 =
    sample_action self observation.
Proof.
  intros Hsame.
  unfold sample_action_dist_and_value, _sample_action_dist_and_value,
    sample_action, _sample_action, device_get.
  rewrite <- Hsame.
  by destruct (dist_sample_and_log_prob _ _) as [a lp].
Qed.

Lemma update_policy_passthrough self batch n g t :
  update_policy (with_passthrough self n g t) batch =
  on_container (fun s => with_passthrough s n g t) (update_policy self batch).
Proof.
  rewrite !update_policy_unfold.
  change (policy_loss (with_passthrough self n g t) batch)
    with (policy_loss self batch).
  change (key (with_passthrough self n g t)) with (key self).
  change (policy (with_passthrough self n g t)) with (policy self).
  destruct (policy_loss self batch _ _) as [[l lg]|e]; reflexivity.
Qed.

Lemma update_value_function_passthrough self batch n g t :
  update_value_function (with_passthrough self n g t) batch =
  on_container (fun s => with_passthrough s n g t)
               (update_value_function self batch).
Proof.
  rewrite !update_value_function_unfold.
  change (value_function_loss (with_passthrough self n g t) batch)
    with (value_function_loss self batch).
  change (value_function (with_passthrough self n g t))
    with (value_function self).
  destruct (value_function_loss self batch _) as [[l lg]|e]; reflexivity.
Qed.

(** X5. [update] never reads [num_tasks], [gamma] or [target_kl]: on a
    container with other values in these three fields it raises the same
    exception or returns the same logs and the same container, up to
    these three fields, which it passes through. *)
Theorem update_ignores_passthrough (self : MTPPO) (d : UpdateData)
    (n : nat) (g : F) (t : option F) :
  update (with_passthrough self n g t) d =
  on_container (fun s => with_passthrough s n g t) (update self d).
Proof.
  destruct d as [rb|batch]; [reflexivity|]. unfold update.
  destruct (log_probs batch), (advantages batch), (returns batch);
    try reflexivity.
  unfold _update_inner. rewrite update_policy_passthrough.
  destruct (update_policy self batch) as [[s1 pl]|e]; [|reflexivity].
  cbn [on_container mbind result_bind].
  rewrite update_value_function_passthrough.
  destruct (update_value_function s1 batch) as [[s2 vl]|e]; reflexivity.
Qed.

(** X6. The policy step reads the rollout only through its
    observations, log-probabilities and advantages: on two rollouts that
    agree on these three its loss closure is the same at every key and
    parameter value, and [update_policy] has the same outcome, whatever
    their actions, old values and returns. *)
Theorem update_policy_ignores_targets
    (self : MTPPO) (d1 d2 : Rollout) :
  observations d1 = observations d2 ->
  log_probs d1 = log_probs d2 ->
  advantages d1 = advantages d2 ->
  (forall k q, policy_loss self d1 k q = policy_loss self d2 k q) /\
  update_policy self d1 = update_policy self d2.
Proof.
  intros Ho Hl Ha. destruct d1, d2; simpl in *; subst. by split.
Qed.



(** X9. The policy step has no shape assertion. With the
    log-probabilities stored as a vector of [n] entries instead of a
    column, the difference with the column of fresh log-probabilities
    broadcasts to a table of [n] by [n] entries, every array operation of
    the step succeeds on such tables, and the step raises at [float] as it
    does on a rollout of columns, not on the shapes. *)
Theorem policy_step_broadcasts_flat_log_probs
    (self : MTPPO) (batch : Rollout) (lp adv : Tensor) (n : nat) :
  log_probs batch = Some lp ->
  advantages batch = Some adv ->
  has_shape lp [n] ->
  has_shape adv [n; 1] ->
  wf_tensor (fresh_log_probs self batch (params (policy self))) ->
  numel (shape (fresh_log_probs self batch (params (policy self)))) = n ->
  (exists log_ratio,
      binop fsub
        (reshape_col (fresh_log_probs self batch (params (policy self)))) lp =
        Ok log_ratio /\
      has_shape log_ratio [n; n]) /\
  is_ok (policy_losses self batch (random_split (key self) 2 1)
                       (params (policy self))) = true /\
  update_policy self batch = Raise ConcretizationTypeError.
Proof.
  intros Hlp Hadv Hslp Hsadv Hwf Hn.
  assert (Hcol : has_shape
            (reshape_col (fresh_log_probs self batch (params (policy self))))
            [n; 1]) by by apply has_shape_reshape_col.
  destruct (binop_broadcast fsub _ _ _ _ _ Hcol Hslp (broadcast_col_vec n))
    as (lr & Elr & Hlr).
  split; [by exists lr|].
  assert (Hok : is_ok (policy_losses self batch (random_split (key self) 2 1)
                         (params (policy self))) = true).
  { unfold policy_losses.
    unfold fresh_log_probs, candidate_dist in Elr.
    destruct (dist_sample_and_log_prob _ _) as [smp nlp].
    simpl in Elr. rewrite Hlp, Hadv. simpl. rewrite Elr. simpl.
    destruct (binop_broadcast fmul (tmap fneg adv) (tmap fexp lr)
                [n; 1] [n; n] [n; n]) as (p1 & -> & Hp1);
      [by apply has_shape_tmap | by apply has_shape_tmap
      | apply broadcast_col_table |].
    simpl.
    destruct (binop_broadcast fmul (tmap fneg adv)
                (tmap (fun r => fclamp (fsub (lit 1) (clip_eps self)) r
                                       (fadd (lit 1) (clip_eps self)))
                      (tmap fexp lr))
                [n; 1] [n; n] [n; n]) as (p2 & -> & Hp2);
      [by apply has_shape_tmap | by repeat apply has_shape_tmap
      | apply broadcast_col_table |].
    simpl.
    destruct (binop_broadcast fmaximum p1 p2 [n; n] [n; n] [n; n])
      as (pm & -> & Hpm); [done | done | apply broadcast_shapes_same |].
    reflexivity. }
  split; [done|].
  rewrite update_policy_raises.
  by destruct (policy_losses self batch _ _).
Qed.

(** X11. When the rollout holds a column of [m] log-probabilities and the
    policy yields [n] of them, with [m] and [n] different and neither
    equal to 1, the policy step raises the broadcasting error of the
    subtraction, and so does [update] on a rollout with advantages and
    returns: the value step is not reached. *)
Theorem policy_step_batch_mismatch_raises
    (self : MTPPO) (batch : Rollout) (lp : Tensor) (n m : nat) :
  log_probs batch = Some lp ->
  shape lp = [m; 1] ->
  numel (shape (fresh_log_probs self batch (params (policy self)))) = n ->
  n <> m -> n <> 1 -> m <> 1 ->
  update_policy self batch = Raise (BroadcastError [n; 1] [m; 1]) /\
  (advantages batch <> None -> returns batch <> None ->
   update self (IsRollout batch) = Raise (BroadcastError [n; 1] [m; 1])).
Proof.
  intros Hlp Hs Hn Hnm Hn1 Hm1.
  assert (Hp : update_policy self batch =
               Raise (BroadcastError [n; 1] [m; 1])).
  { rewrite update_policy_raises. unfold policy_losses.
    unfold fresh_log_probs, candidate_dist in Hn.
    destruct (dist_sample_and_log_prob _ _) as [smp nlp].
    simpl in Hn. rewrite Hlp. simpl.
    rewrite binop_broadcast_error; simpl; rewrite Hs, Hn; [done|].
    by apply broadcast_cols_None. }
  split; [done|]. intros Ha Hr. unfold update. rewrite Hlp.
  destruct (advantages batch); [|done]. destruct (returns batch); [|done].
  unfold _update_inner. by rewrite Hp.
Qed.

(** X15. [initialize] reads the action space only through the number of
    elements of its box: two environments with the same observation space
    whose action boxes hold equally many numbers give the same
    container. *)
Theorem initialize_action_space_numel
    (config : MTPPOConfig) (env1 env2 : EnvConfig) (seed : Z) :
  is_box (action_space env1) = true ->
  is_box (action_space env2) = true ->
  numel (space_shape (action_space env1)) =
    numel (space_shape (action_space env2)) ->
  observation_space env1 = observation_space env2 ->
  initialize config env1 seed = initialize config env2 seed.
Proof.
  intros H1 H2 Hn Ho. unfold initialize. by rewrite H1, H2, Hn, Ho.
Qed.

Lemma sample_n_shapes shp n g :
  (forall s g', has_shape (box_sample s g').1 s) ->
  Forall (fun t => has_shape t shp) (sample_n shp n g).1.
Proof.
  intros Hbox. revert g. induction n as [|n IH]; intros g; simpl;
    [constructor|].
  pose proof (Hbox shp g) as Hx.
  destruct (box_sample shp g) as [x g1]. specialize (IH g1).
  destruct (sample_n shp n g1) as [xs g2]. by constructor.
Qed.

Lemma stack_has_shape (ts : list Tensor) shp :
  Forall (fun t => has_shape t shp) ts ->
  has_shape (stack ts) (stacked_shape (length ts) shp).
Proof.
  intros Hall. destruct Hall as [|t ts [Hs Hl] Hts]; [by split|].
  split; simpl; [by rewrite Hs|].
  rewrite length_app, Hl.
  rewrite (length_concat_uniform _ (numel shp)).
  - rewrite length_fmap. unfold numel. simpl. lia.
  - apply Forall_fmap. eapply Forall_impl; [exact Hts|]. by intros ? [_ ?].
Qed.

(** X16. When the generator of the observation box returns well-formed
    arrays of the shape of the box, the dummy batch on which [initialize]
    initializes both networks is a well-formed array of shape
    [num_tasks :: shape]; with zero tasks it is the empty array of shape
    [0], without the observation dimensions. *)
Theorem initialize_dummy_batch
    (config : MTPPOConfig) (env_config : EnvConfig) (seed : Z) :
  (forall s g, has_shape (box_sample s g).1 s) ->
  is_box (action_space env_config) = true ->
  is_box (observation_space env_config) = true ->
  exists self dummy_obs,
    initialize config env_config seed = Ok self /\
    has_shape dummy_obs
      (stacked_shape (cfg_num_tasks config)
                     (space_shape (observation_space env_config))) /\
    params (policy self) =
      policy_net_init (numel (space_shape (action_space env_config)))
        (policy_config config) (random_split (PRNGKey seed) 3 1) dummy_obs /\
    params (value_function self) =
      vf_net_init (vf_config config) (random_split (PRNGKey seed) 3 2)
                  dummy_obs.
Proof.
  intros Hbox Ha Ho. unfold initialize. rewrite Ha, Ho. simpl.
  eexists _, _. split; [reflexivity|]. split; [|by split].
  pose proof (stack_has_shape _ _
    (sample_n_shapes (space_shape (observation_space env_config))
       (cfg_num_tasks config) (np_random (observation_space env_config))
       Hbox)) as Hstack.
  by rewrite sample_n_length in Hstack.
Qed.

End Further.

(** ** Further runs on the rational backend *)
Section FurtherRuns.
#[local] Existing Instance Rational.scalar.
#[local] Existing Instance Rational.backend.
Import Rational.

Lemma rational_box_sample_shape (s : list nat) (g : nat) :
  has_shape (box_sample s g).1 s.
Proof. split; [reflexivity|]. simpl. apply length_replicate. Qed.

Lemma sample_action_dist_and_value_same_action_witness :
  (sample_action_dist_and_value state0 (observations rollout0)).1.1.1.1 =
  sample_action state0 (observations rollout0).
Proof.
  apply sample_action_dist_and_value_same_action. intros d k. reflexivity.
Defined.

Lemma update_policy_ignores_targets_witness :
  update_policy state0 rollout0 = update_policy state0 rollout_other_targets.
Proof.
  apply (update_policy_ignores_targets state0 rollout0 rollout_other_targets);
    reflexivity.
Defined.


Lemma policy_step_broadcasts_flat_log_probs_witness :
  is_ok (policy_losses state0 rollout_flat_log_probs 17
           (params (policy state0))) = true /\
  update_policy state0 rollout_flat_log_probs = Raise ConcretizationTypeError.
Proof.
  assert (Hvec : has_shape (tensor [2] [-1; -2]%Q) [2]) by (split; reflexivity).
  assert (Hcol : has_shape (col [1; -1]%Q) [2; 1]) by (split; reflexivity).
  destruct (policy_step_broadcasts_flat_log_probs state0 rollout_flat_log_probs
              (tensor [2] [-1; -2]%Q) (col [1; -1]%Q) 2
              eq_refl eq_refl Hvec Hcol eq_refl eq_refl) as (_ & Hok & Hu).
  split; [exact Hok | exact Hu].
Defined.

Lemma policy_step_batch_mismatch_raises_witness :
  update state0 (IsRollout rollout_three_log_probs) =
    Raise (BroadcastError [2; 1] [3; 1]).
Proof.
  assert (H23 : 2 <> 3) by lia.
  assert (H21 : 2 <> 1) by lia.
  assert (H31 : 3 <> 1) by lia.
  destruct (policy_step_batch_mismatch_raises state0 rollout_three_log_probs
              (col [-1; -2; -3]%Q) 2 3 eq_refl eq_refl eq_refl H23 H21 H31)
    as [_ H].
  apply H; discriminate.
Defined.

Lemma initialize_action_space_numel_witness :
  initialize config box_env_2x3 1 = initialize config box_env_6 1.
Proof.
  apply initialize_action_space_numel; reflexivity.
Defined.

Lemma initialize_dummy_batch_witness :
  exists self dummy_obs,
    initialize config box_env 1 = Ok self /\
    has_shape dummy_obs [2; 2] /\
    params (policy self) =
      policy_net_init 1 (policy_config config) (random_split (PRNGKey 1) 3 1)
                      dummy_obs.
Proof.
  destruct (initialize_dummy_batch config box_env 1
              rational_box_sample_shape eq_refl eq_refl)
    as (self & dummy & Hi & Hs & Hp & _).
  exists self, dummy. split; [exact Hi|]. split; [exact Hs | exact Hp].
Defined.

End FurtherRuns.
